(** * dash_pydantic_form.fields.model_field: the nested-model field renderer

    A shallow embedding of [model_field.py]: the [ModelField] class (layout
    validator, post-init hook, the three renderers and the string-keyed
    dispatch [_render]) and the two client-side callbacks that open and
    close the modal. *)

From Stdlib Require Import ZArith.
From stdpp Require Import base strings list gmap.

Local Open Scope string_scope.
Local Open Scope Z_scope.

Set Warnings "-register-all".

(** ** Python values *)

(** The dynamically typed values that flow through the module.  A dash
    component (and the [ModelForm] all-in-one component) is recorded as the
    constructor call that builds it: class, positional arguments, keyword
    arguments. *)
Inductive Py : Type :=
| PNone
| PBool (b : bool)
| PInt (n : Z)
| PFloat (digits exp10 : Z)              (* the literal digits * 10^exp10 *)
| PStr (s : string)
| PList (xs : list Py)
| PDict (items : list (Py * Py))
| PMatch                                 (* dash.MATCH *)
| PFormLayout (cls : string) (fields : list (string * Py))
                                         (* instance of FormLayout or a subclass *)
| PObj (cls : string) (attrs : list (string * Py))
                                         (* any other object: BaseModel, FieldInfo, ... *)
| PComp (kind : string) (args : list Py) (kwargs : list (string * Py)).

Definition Kwargs : Type := list (string * Py).

(** [v is None], [isinstance(v, FormLayout)], [isinstance(v, dict)]. *)
Definition is_None (v : Py) : bool :=
  match v with PNone => true | _ => false end.

Definition isinstance_FormLayout (v : Py) : bool :=
  match v with PFormLayout _ _ => true | _ => false end.

Definition isinstance_dict (v : Py) : bool :=
  match v with PDict _ => true | _ => false end.

(** [type(v).__name__], used by the interpreter in its messages. *)
Definition type_name (v : Py) : string :=
  match v with
  | PNone => "NoneType"
  | PBool _ => "bool"
  | PInt _ => "int"
  | PFloat _ _ => "float"
  | PStr _ => "str"
  | PList _ => "list"
  | PDict _ => "dict"
  | PMatch => "_Wildcard"
  | PFormLayout cls _ => cls
  | PObj cls _ => cls
  | PComp kind _ _ => kind
  end.

(** An optional string, as [get_title] and [get_description] return it. *)
Definition py_of_opt (o : option string) : Py :=
  match o with Some s => PStr s | None => PNone end.

(** [o is not None] and [bool(o)] for [o : str | None]. *)
Definition is_not_None (o : option string) : bool :=
  match o with Some _ => true | None => false end.

Definition truthy (o : option string) : bool :=
  match o with
  | Some s => negb (String.eqb s EmptyString)
  | None => false
  end.

(** [b * xs] and [xs * b] for a bool [b]: the list once, or the empty list. *)
Definition list_mul {A} (b : bool) (xs : list A) : list A :=
  if b then xs else [].

(** ** Exceptions, outcomes, and the effects of a call *)

Inductive Exc : Type :=
| ValueError (msg : string)
| ValidationError (errors : list (string * string))  (* pydantic; field, message *)
| TypeError (msg : string)
| NameError (name : string)
| KeyError (key : string)
| OtherError (cls msg : string).

(** [isinstance(e, ValueError)]: pydantic's [ValidationError] derives from
    [ValueError]. *)
Definition is_ValueError (e : Exc) : bool :=
  match e with
  | ValueError _ | ValidationError _ => true
  | _ => false
  end.

Inductive Outcome (A : Type) : Type :=
| Ok (a : A)
| Raise (e : Exc).
Arguments Ok {A} a.
Arguments Raise {A} e.

#[global] Instance Outcome_ret : MRet Outcome := fun A a => Ok a.

#[global] Instance Outcome_bind : MBind Outcome := fun A B k o =>
  match o with
  | Ok a => k a
  | Raise e => Raise e
  end.

(** What a call can touch besides its arguments: the operating system's
    randomness behind [uuid.uuid4()], given as the supply of hex strings it
    will hand out and the number already drawn. *)
Record World : Type := mkWorld {
  uuid_supply : nat -> string;
  uuid_drawn : nat
}.

(** A computation runs against the module's global names and the world. *)
Definition M (A : Type) : Type := list string -> World -> Outcome A * World.

#[global] Instance M_ret : MRet M := fun A a _ w => (Ok a, w).

#[global] Instance M_bind : MBind M := fun A B k m g w =>
  match m g w with
  | (Ok a, w') => k a g w'
  | (Raise e, w') => (Raise e, w')
  end.

Definition raise {A} (e : Exc) : M A := fun _ w => (Raise e, w).

(** Reading a global name that the module never bound raises [NameError]. *)
Definition load_global (name : string) : M unit :=
  fun g w =>
    if existsb (String.eqb name) g then (Ok tt, w) else (Raise (NameError name), w).

(** [uuid.uuid4().hex]: the next string of the supply. *)
Definition uuid4_hex : M string :=
  fun _ w => (Ok (uuid_supply w (uuid_drawn w)),
              mkWorld (uuid_supply w) (S (uuid_drawn w))).

(** The names bound at module level: the imports of lines 1-21 and the
    class itself. *)
Definition module_globals : list string :=
  [ "partial"; "Literal"; "dmc"; "MATCH"; "ClientsideFunction"; "Input";
    "Output"; "clientside_callback"; "Component"; "DashIconify"; "BaseModel";
    "Field"; "SerializeAsAny"; "field_validator"; "FieldInfo"; "common_ids";
    "BaseField"; "FieldsRepr"; "FormLayout"; "_"; "get_fullpath";
    "get_str_discriminator"; "ModelField" ].

(** The shape of the one call [_render] makes on what it looked up:
    [renderer(item, aio_id=..., form_id=..., field=..., parent=...,
    field_info=...)]. *)
Definition Call : Type :=
  Py -> string -> string -> string -> string -> Py -> M Py.

(** Calling a plain value. *)
Definition call_value (v : Py) : Call :=
  fun _ _ _ _ _ _ =>
    raise (TypeError ("'" +:+ type_name v +:+ "' object is not callable")).

(** ** The collaborators the module imports

    [BaseField] (the parent class), [FormLayout], [common_ids],
    [get_fullpath], [get_str_discriminator] and the translation function [_]
    live in other files of the package.  They enter as an interface; their
    results are taken as the values their annotations announce. *)
Class Collaborators : Type := {
  (** the attributes an instance inherits from [BaseField] *)
  BaseField : Type;
  (** [self.read_only] *)
  read_only : BaseField -> Py;
  (** [self.get_title(field_info, field_name=field)] *)
  get_title : BaseField -> Py -> string -> option string;
  (** [self.get_description(field_info)] *)
  get_description : BaseField -> Py -> option string;
  (** an attribute found on the parent class, seen through the call made on it *)
  BaseField_getattr : BaseField -> string -> option Call;
  (** [super().model_post_init(_context)]: it sees the extras and rewrites
      inherited attributes *)
  BaseField_model_post_init : BaseField -> option (gmap string Py) -> BaseField;
  (** [FormLayout.load] on keyword arguments: the class and fields of the layout built *)
  FormLayout_load : Kwargs -> Outcome (string * list (string * Py));
  (** [common_ids.field_dependent_id] on positional and keyword arguments *)
  field_dependent_id : list Py -> Kwargs -> Py;
  (** [get_fullpath(parent, field)] *)
  get_fullpath : string -> string -> string;
  (** [get_str_discriminator(field_info)] *)
  get_str_discriminator : Py -> Py;
  (** [_(text)] *)
  gettext : string -> string
}.

(** ** The field configuration *)

Record ModelField `{Collaborators} : Type := mkModelField {
  inherited : BaseField;
  model_extra : option (gmap string Py);   (* None when extras are not kept *)
  render_type : string;
  fields_repr : Py;
  form_layout : Py;
  form_cols : Z;
  excluded_fields : Py;
  fields_order : Py
}.

(** What the validation of one field contributes: a value, an entry of the
    collected [ValidationError], or an exception that escapes at once. *)
Inductive FieldResult (A : Type) : Type :=
| Valid (a : A)
| Invalid (errors : list (string * string))
| Escapes (e : Exc).
Arguments Valid {A} a.
Arguments Invalid {A} errors.
Arguments Escapes {A} e.

Section Construction.
Context `{Collaborators}.

(** Unpacking a dict into keyword arguments: the keys become the names. *)
Fixpoint keywords (items : list (Py * Py)) : Outcome Kwargs :=
  match items with
  | [] => Ok []
  | (PStr k, v) :: rest =>
      kw ← keywords rest; Ok ((k, v) :: kw)
  | _ :: _ => Raise (TypeError "keywords must be strings")
  end.

Definition form_layout_msg : string :=
  "form_layout must be a FormLayout or a dict that can be converted to a FormLayout".

(** [ModelField.validate_form_layout], the [mode="before"] validator. *)
Definition validate_form_layout (v : Py) : Outcome Py :=
  if isinstance_FormLayout v || is_None v then Ok v
  else
    match v with
    | PDict items =>
        kw ← keywords items;
        l ← FormLayout_load kw;
        Ok (PFormLayout l.1 l.2)
    | _ => Raise (ValueError form_layout_msg)
    end.

(** [bool(d)], [d.get(k)] and [d[k]] for a dict [d]. *)
Definition dict_truthy (m : gmap string Py) : bool :=
  negb (Nat.eqb (size m) 0).

Definition dict_get (m : gmap string Py) (k : string) : Py :=
  default PNone (m !! k).

Definition dict_item (m : gmap string Py) (k : string) : Outcome Py :=
  match m !! k with
  | Some v => Ok v
  | None => Raise (KeyError k)
  end.

(** Attribute assignments on the instance. *)
Definition set_inherited (self : ModelField) (base : BaseField) : ModelField :=
  mkModelField _ base (model_extra self) (render_type self) (fields_repr self)
    (form_layout self) (form_cols self) (excluded_fields self) (fields_order self).

Definition set_fields_repr (self : ModelField) (v : Py) : ModelField :=
  mkModelField _ (inherited self) (model_extra self) (render_type self) v
    (form_layout self) (form_cols self) (excluded_fields self) (fields_order self).

Definition set_form_layout (self : ModelField) (v : Py) : ModelField :=
  mkModelField _ (inherited self) (model_extra self) (render_type self)
    (fields_repr self) v (form_cols self) (excluded_fields self) (fields_order self).

(** [ModelField.model_post_init].  A [model_extra] of [None] is falsy, and
    [and] stops there. *)
Definition model_post_init (self : ModelField) : Outcome ModelField :=
  let self :=
    set_inherited self
      (BaseField_model_post_init (inherited self) (model_extra self)) in
  let self :=
    if is_None (fields_repr self) then set_fields_repr self (PDict []) else self in
  match model_extra self with
  | Some extra =>
      if is_None (form_layout self) && dict_truthy extra
         && negb (is_None (dict_get extra "sections"))
      then
        sections ← dict_item extra "sections";
        Ok (set_form_layout self sections)
      else Ok self
  | None => Ok self
  end.

(** The values of [Literal["accordion", "modal", "simple"]]. *)
Definition render_type_literal (s : string) : bool :=
  String.eqb s "accordion" || String.eqb s "modal" || String.eqb s "simple".

(** The keyword arguments of [ModelField(...)] that this class declares;
    [None] stands for an argument left out.  The inherited part and the
    extras arrive as the parent class's validation leaves them. *)
Record InitArgs : Type := mkInitArgs {
  init_inherited : BaseField;
  init_extra : option (gmap string Py);
  init_render_type : option string;
  init_fields_repr : option Py;
  init_form_layout : option Py;
  init_form_cols : option Z;
  init_excluded_fields : option Py;
  init_fields_order : option Py
}.

Definition check_render_type (arg : option string) : FieldResult string :=
  match arg with
  | None => Valid "accordion"
  | Some s =>
      if render_type_literal s then Valid s
      else Invalid [("render_type", "Input should be 'accordion', 'modal' or 'simple'")]
  end.

(** The before-validator runs on a supplied value only; a [ValueError] it
    raises becomes an entry of the [ValidationError], any other exception
    escapes.  What it returns is a [FormLayout] or [None], which the field's
    annotation accepts as it is. *)
Definition check_form_layout (arg : option Py) : FieldResult Py :=
  match arg with
  | None => Valid PNone
  | Some v =>
      match validate_form_layout v with
      | Ok v' => Valid v'
      | Raise (ValueError msg) => Invalid [("form_layout", "Value error, " +:+ msg)]
      | Raise (ValidationError errs) => Invalid errs
      | Raise e => Escapes e
      end
  end.

(** Calling [ModelField] on keyword arguments: field validation in
    declaration order, then [model_post_init]. *)
Definition ModelField_init (a : InitArgs) : Outcome ModelField :=
  match check_render_type (init_render_type a), check_form_layout (init_form_layout a) with
  | _, Escapes e => Raise e
  | Escapes e, _ => Raise e
  | Valid rt, Valid layout =>
      model_post_init
        (mkModelField _ (init_inherited a) (init_extra a) rt
           (default (PDict []) (init_fields_repr a)) layout
           (default 4 (init_form_cols a))
           (default PNone (init_excluded_fields a))
           (default PNone (init_fields_order a)))
  | Invalid e1, Invalid e2 => Raise (ValidationError (e1 ++ e2))
  | Invalid e1, Valid _ => Raise (ValidationError e1)
  | Valid _, Invalid e2 => Raise (ValidationError e2)
  end.

(** The same arguments with another [form_layout]. *)
Definition with_form_layout (a : InitArgs) (layout : option Py) : InitArgs :=
  mkInitArgs (init_inherited a) (init_extra a) (init_render_type a)
    (init_fields_repr a) layout (init_form_cols a)
    (init_excluded_fields a) (init_fields_order a).

End Construction.

(** ** Rendering *)

Section Rendering.
Context `{Collaborators}.

(** A dict display with string keys. *)
Definition dict_lit (items : Kwargs) : Py :=
  PDict (map (fun kv => (PStr kv.1, kv.2)) items).

(** [class ids]: [partial(common_ids.field_dependent_id, tag)]. *)
Definition edit_tag : string := "_pydf-model-field-edit".
Definition modal_tag : string := "_pydf-model-field-modal".
Definition modal_save_tag : string := "_pydf-model-field-modal-save".

Definition ids_edit (args : list Py) (kw : Kwargs) : Py :=
  field_dependent_id (PStr edit_tag :: args) kw.

Definition ids_modal (args : list Py) (kw : Kwargs) : Py :=
  field_dependent_id (PStr modal_tag :: args) kw.

Definition ids_modal_save (args : list Py) (kw : Kwargs) : Py :=
  field_dependent_id (PStr modal_save_tag :: args) kw.

(** The description line of the simple render, and of the accordion. *)
Definition simple_description (description : option string) : Py :=
  PComp "dmc.Text" [py_of_opt description]
    [("size", PStr "xs"); ("c", PStr "dimmed"); ("mt", PInt (-5));
     ("mb", PInt 5); ("lh", PFloat 12 (-1))].

Definition accordion_description (description : option string) : Py :=
  PComp "dmc.Text" [py_of_opt description]
    [("size", PStr "xs"); ("c", PStr "dimmed")].

(** [ModelField.simple_item]. *)
Definition simple_item (self : ModelField) : Call :=
  fun item aio_id form_id field parent field_info =>
    let title := get_title (inherited self) field_info field in
    let description := get_description (inherited self) field_info in
    load_global "dmc";;
    load_global "get_fullpath";;
    mret
      (PComp "dmc.Box"
         [PList
            [PComp "dmc.Stack"
               [PList
                  (list_mul (is_not_None title)
                     [PComp "dmc.Text" [py_of_opt title]
                        [("size", PStr "sm"); ("mt", PInt 3); ("mb", PInt 5);
                         ("fw", PInt 500); ("lh", PFloat 155 (-2))]]
                   ++ list_mul (is_not_None title && is_not_None description)
                        [simple_description description])]
               [("gap", PInt 0)];
             PComp "ModelForm" []
               [("item", item);
                ("aio_id", PStr aio_id);
                ("form_id", PStr form_id);
                ("path", PStr (get_fullpath parent field));
                ("fields_repr", fields_repr self);
                ("form_layout", form_layout self);
                ("read_only", read_only (inherited self));
                ("form_cols", PInt (form_cols self));
                ("excluded_fields", excluded_fields self);
                ("fields_order", fields_order self)]]]
         []).

(** [ModelField.modal_item]. *)
Definition modal_item (self : ModelField) : Call :=
  fun item aio_id form_id field parent field_info =>
    let title := get_title (inherited self) field_info field in
    load_global "get_fullpath";;
    let new_parent := get_fullpath parent field in
    load_global "dmc";;
    load_global "DashIconify";;
    load_global "_";;
    let address := [PStr aio_id; PStr form_id; PStr field] in
    mret
      (PComp "dmc.Paper"
         [PComp "dmc.Group"
            [PList
               [PComp "dmc.Text" [py_of_opt title]
                  [("style",
                    dict_lit
                      [("flex", PInt 1); ("overflow", PStr "hidden");
                       ("textOverflow", PStr "ellipsis");
                       ("whiteSpace", PStr "nowrap")])];
                PComp "dmc.Group"
                  [PList
                     [PComp "dmc.ActionIcon"
                        [PComp "DashIconify" []
                           [("icon", PStr "carbon:edit"); ("height", PInt 16)]]
                        [("variant", PStr "light"); ("size", PStr "sm");
                         ("id", ids_edit address [("parent", PStr parent)])]]]
                  [("gap", PStr "0.25rem")];
                PComp "dmc.Modal"
                  [PList
                     [PComp "ModelForm" []
                        [("item", item);
                         ("aio_id", PStr aio_id);
                         ("form_id", PStr form_id);
                         ("path", PStr new_parent);
                         ("fields_repr", fields_repr self);
                         ("form_layout", form_layout self);
                         ("read_only", read_only (inherited self));
                         ("form_cols", PInt (form_cols self));
                         ("excluded_fields", excluded_fields self);
                         ("fields_order", fields_order self)];
                      PComp "dmc.Group"
                        [PComp "dmc.Button" [PStr (gettext "Save")]
                           [("leftSection",
                             PComp "DashIconify" [] [("icon", PStr "carbon:save")]);
                            ("id", ids_modal_save address [("parent", PStr parent)])]]
                        [("justify", PStr "right"); ("mt", PStr "sm")]]]
                  [("title", py_of_opt title);
                   ("id", ids_modal address [("parent", PStr parent)]);
                   ("style",
                    dict_lit
                      [("--modal-size", PStr "min(calc(100vw - 4rem), 1150px)")]);
                   ("styles",
                    dict_lit
                      [("content", dict_lit [("containerType", PStr "inline-size")])])]]]
            [("gap", PStr "sm"); ("align", PStr "top")]]
         [("withBorder", PBool true); ("radius", PStr "sm"); ("p", PStr "xs");
          ("className", PStr "pydf-model-list-modal-item")]).

(** The panel body of the accordion: the [dmc.Container] of lines 211-229. *)
Definition accordion_panel (self : ModelField) (item : Py)
    (aio_id form_id field parent : string)
    (title description : option string) (discriminator : Py) : Py :=
  PComp "dmc.Container" []
    [("children",
      PList
        (list_mul (truthy description)
           (list_mul (truthy title) [accordion_description description])
         ++ [PComp "ModelForm" []
               [("item", item);
                ("aio_id", PStr aio_id);
                ("form_id", PStr form_id);
                ("path", PStr (get_fullpath parent field));
                ("fields_repr", fields_repr self);
                ("form_layout", form_layout self);
                ("discriminator", discriminator);
                ("read_only", read_only (inherited self));
                ("form_cols", PInt (form_cols self));
                ("excluded_fields", excluded_fields self);
                ("fields_order", fields_order self)]]));
     ("fluid", PBool true)].

Definition accordion_style : Py :=
  dict_lit
    [("control", dict_lit [("padding", PStr "0.5rem")]);
     ("label", dict_lit [("padding", PInt 0)]);
     ("item",
      dict_lit
        [("border",
          PStr "1px solid color-mix(in srgb, var(--mantine-color-gray-light), transparent 40%)");
         ("background",
          PStr "color-mix(in srgb, var(--mantine-color-gray-light), transparent 80%)");
         ("marginBottom", PStr "0.5rem");
         ("borderRadius", PStr "0.25rem")]);
     ("content",
      dict_lit
        [("display", PStr "flex"); ("flexDirection", PStr "column");
         ("gap", PStr "0.375rem"); ("padding", PStr "0.125rem 0.5rem 0.5rem")]);
     ("--pydf-field-cols", PStr "var(--pydf-form-cols)")].

(** [ModelField.accordion_item].  The callee [fac.AntdAccordion] is looked up
    before any argument is evaluated; the key is drawn while the [items]
    argument is built. *)
Definition accordion_item (self : ModelField) : Call :=
  fun item aio_id form_id field parent field_info =>
    let title := get_title (inherited self) field_info field in
    let description := get_description (inherited self) field_info in
    load_global "get_str_discriminator";;
    let discriminator := get_str_discriminator field_info in
    load_global "fac";;
    load_global "uuid";;
    key ← uuid4_hex;
    load_global "dmc";;
    load_global "get_fullpath";;
    mret
      (PComp "fac.AntdAccordion" []
         [("items",
           PList
             [dict_lit
                [("title", py_of_opt title);
                 ("key", PStr key);
                 ("children",
                  accordion_panel self item aio_id form_id field parent
                    title description discriminator)]]);
          ("style", accordion_style);
          ("className", PStr "pydantic-form-field")]).

(** The three identifiers of the modal render, in the order the controls
    appear in the description: edit button, modal, save button. *)
Definition modal_control_ids (aio_id form_id field parent : string) : list Py :=
  [ ids_edit [PStr aio_id; PStr form_id; PStr field] [("parent", PStr parent)];
    ids_modal [PStr aio_id; PStr form_id; PStr field] [("parent", PStr parent)];
    ids_modal_save [PStr aio_id; PStr form_id; PStr field] [("parent", PStr parent)] ].

(** The three render styles the class body defines. *)
Inductive Style : Type := Accordion | Modal | Simple.

Definition style_name (s : Style) : string :=
  match s with
  | Accordion => "accordion"
  | Modal => "modal"
  | Simple => "simple"
  end.

Definition renderer (s : Style) (self : ModelField) : Call :=
  match s with
  | Accordion => accordion_item self
  | Modal => modal_item self
  | Simple => simple_item self
  end.

(** [getattr(self, name)] for the names [_render] asks for, those of the
    form [<style>_item]: a method of the class body, else what the parent
    class offers, else an extra kept on the instance.  [None] is
    [AttributeError]. *)
Definition getattr (self : ModelField) (name : string) : option Call :=
  if String.eqb name "simple_item" then Some (simple_item self)
  else if String.eqb name "modal_item" then Some (modal_item self)
  else if String.eqb name "accordion_item" then Some (accordion_item self)
  else
    match BaseField_getattr (inherited self) name with
    | Some c => Some c
    | None =>
        match model_extra self with
        | Some m => call_value <$> m !! name
        | None => None
        end
    end.

(** [ModelField._render]. *)
Definition _render (self : ModelField) : Call :=
  fun item aio_id form_id field parent field_info =>
    match getattr self (render_type self +:+ "_item") with
    | Some callee => callee item aio_id form_id field parent field_info
    | None => raise (ValueError ("Unknown render type: " +:+ render_type self))
    end.

End Rendering.

(** ** Reading a UI description *)

(** The components of a description, parents first.  A component's children
    are its first positional argument, or its [children] keyword. *)
Fixpoint nodes (v : Py) : list Py :=
  match v with
  | PComp _ args kwargs =>
      v :: match args with
           | c :: _ => nodes c
           | [] =>
               (fix in_kwargs (kw : list (string * Py)) : list Py :=
                  match kw with
                  | [] => []
                  | (k, c) :: rest =>
                      if String.eqb k "children" then nodes c else in_kwargs rest
                  end) kwargs
           end
  | PList xs =>
      (fix in_list (l : list Py) : list Py :=
         match l with
         | [] => []
         | x :: rest => (nodes x ++ in_list rest)%list
         end) xs
  | _ => []
  end.

Fixpoint kwarg (name : string) (kw : Kwargs) : option Py :=
  match kw with
  | [] => None
  | (k, v) :: rest => if String.eqb k name then Some v else kwarg name rest
  end.

Definition prop (name : string) (node : Py) : option Py :=
  match node with
  | PComp _ _ kw => kwarg name kw
  | _ => None
  end.

Definition is_kind (kind : string) (node : Py) : bool :=
  match node with
  | PComp k _ _ => String.eqb k kind
  | _ => false
  end.

(** The identifiers a description gives to its controls. *)
Definition control_ids (tree : Py) : list Py :=
  omap (prop "id") (nodes tree).

(** The keyword arguments of the embedded sub-form calls. *)
Definition sub_form_calls (tree : Py) : list Kwargs :=
  omap (fun n => match n with
                 | PComp "ModelForm" _ kw => Some kw
                 | _ => None
                 end) (nodes tree).

(** A description line is a dimmed [dmc.Text]. *)
Definition is_description (node : Py) : bool :=
  is_kind "dmc.Text" node &&
  match prop "c" node with
  | Some (PStr "dimmed") => true
  | _ => false
  end.

Definition description_elements (tree : Py) : list Py :=
  filter (fun n => is_description n = true) (nodes tree).

(** Whether a [dmc.Modal] is mounted open: its [opened] property, closed
    when the property is not given. *)
Definition mounted_open (node : Py) : bool :=
  match prop "opened" node with
  | Some (PBool b) => b
  | _ => false
  end.

(** ** The client-side callbacks *)

(** One side of a callback: the [ids] entry, the keys it was applied to and
    the property addressed. *)
Record Dependency : Type := mkDependency {
  dep_tag : string;
  dep_keys : list Py;
  dep_property : string
}.

Record Callback : Type := mkCallback {
  cb_namespace : string;
  cb_function_name : string;
  cb_output : Dependency;
  cb_input : Dependency;
  cb_prevent_initial_call : bool
}.

Definition all_MATCH : list Py := [PMatch; PMatch; PMatch; PMatch; PMatch].

(** Lines 278-292. *)
Definition open_on_edit : Callback :=
  mkCallback "pydf" "syncTrue"
    (mkDependency modal_tag all_MATCH "opened")
    (mkDependency edit_tag all_MATCH "n_clicks")
    true.

Definition close_on_save : Callback :=
  mkCallback "pydf" "syncFalse"
    (mkDependency modal_tag all_MATCH "opened")
    (mkDependency modal_save_tag all_MATCH "n_clicks")
    true.

Definition callbacks : list Callback := [open_on_edit; close_on_save].

(** Modelled from the spec: the client-side functions [pydf.syncTrue] and
    [pydf.syncFalse] are JavaScript assets of the package; the spec gives
    their effect as "Clicking an edit control sets the corresponding modal's
    open state to true" and "Clicking a save control inside a modal sets that
    modal's open state to false".  Any other name has no function behind it,
    so nothing is written. *)
Definition clientside_function (namespace name : string) : option Py :=
  if String.eqb namespace "pydf" then
    if String.eqb name "syncTrue" then Some (PBool true)
    else if String.eqb name "syncFalse" then Some (PBool false)
    else None
  else None.

(** The page: the properties the callbacks have written, by control (entry
    of [ids], the five keys of its identifier) and property name. *)
Abbreviation Address := (list string).

Abbreviation Page := (gmap (string * Address * string) Py).

(** A pattern key matches a concrete key when it is the wildcard or the
    same string; a matched wildcard of the output takes the key the input
    matched at that place. *)
Fixpoint keys_match (pattern : list Py) (keys : Address) : bool :=
  match pattern, keys with
  | [], [] => true
  | PMatch :: ps, _ :: ks => keys_match ps ks
  | PStr s :: ps, k :: ks => String.eqb s k && keys_match ps ks
  | _, _ => false
  end.

Fixpoint resolve (pattern : list Py) (keys : Address) : Address :=
  match pattern, keys with
  | PStr s :: ps, _ :: ks => s :: resolve ps ks
  | _ :: ps, k :: ks => k :: resolve ps ks
  | _, _ => []
  end.

Inductive Event : Type :=
| Click (tag : string) (keys : Address).

(** One callback reacting to a click. *)
Definition fire (cb : Callback) (tag : string) (keys : Address) (page : Page) : Page :=
  if String.eqb (dep_tag (cb_input cb)) tag
     && String.eqb (dep_property (cb_input cb)) "n_clicks"
     && keys_match (dep_keys (cb_input cb)) keys
  then
    match clientside_function (cb_namespace cb) (cb_function_name cb) with
    | Some v =>
        <[(dep_tag (cb_output cb), resolve (dep_keys (cb_output cb)) keys,
           dep_property (cb_output cb)) := v]> page
    | None => page
    end
  else page.

Definition step (page : Page) (e : Event) : Page :=
  match e with
  | Click tag keys => foldl (fun pg cb => fire cb tag keys pg) page callbacks
  end.

Definition run_events (page : Page) (events : list Event) : Page :=
  foldl step page events.

(** The callbacks that run when the page loads. *)
Definition initial_calls : list Callback :=
  filter (fun cb => cb_prevent_initial_call cb = false) callbacks.

(** The open state of the modal at an address. *)
Inductive ModalState : Type := Closed | Open.

Definition modal_state (page : Page) (keys : Address) : ModalState :=
  match page !! (modal_tag, keys, "opened") with
  | Some (PBool true) => Open
  | _ => Closed
  end.

(** A page on which no callback has run yet. *)
Definition fresh_page : Page := ∅.

(** What a component shows: its first positional argument, or its
    [children] keyword. *)
Definition children (node : Py) : option Py :=
  match node with
  | PComp _ (c :: _) _ => Some c
  | PComp _ [] kw => kwarg "children" kw
  | _ => None
  end.

(** The two-state reading of the callbacks: a click on an edit control
    opens, a click on a save control closes, any other click changes
    nothing. *)
Definition modal_automaton (s : ModalState) (tag : string) : ModalState :=
  if String.eqb tag edit_tag then Open
  else if String.eqb tag modal_save_tag then Closed
  else s.

(** ** What a render call yields *)

(** The identifiers of the controls of the description a call returned;
    [None] when the call raised. *)
Definition rendered_ids (r : Outcome Py * World) : option (list Py) :=
  match r.1 with
  | Ok tree => Some (control_ids tree)
  | Raise _ => None
  end.


(** ** A concrete set of collaborators

    Inherited attributes reduced to a title, a description and the
    read-only flag; identifiers as the dict of what they were built from;
    paths joined by a colon.  Used to run the definitions on examples. *)
Module Demo.

Record Base : Type := mkBase {
  title : option string;
  description : option string;
  ro : Py
}.

Definition collaborators : Collaborators := {|
  BaseField := Base;
  read_only := ro;
  get_title := fun b _ _ => title b;
  get_description := fun b _ => description b;
  BaseField_getattr := fun _ _ => None;
  BaseField_model_post_init := fun b _ => b;
  FormLayout_load := fun kw => Ok ("FormLayout", kw);
  field_dependent_id := fun args kw =>
    dict_lit [("args", PList args); ("kwargs", dict_lit kw)];
  get_fullpath := fun parent field =>
    if String.eqb parent EmptyString then field else parent +:+ ":" +:+ field;
  get_str_discriminator := fun _ => PNone;
  gettext := fun s => s
|}.

Definition field (style : string) (b : Base) : @ModelField collaborators :=
  @mkModelField collaborators b (Some ∅) style (PDict []) PNone 4 PNone PNone.

(** The nested object and configuration of the pass-through example. *)
Definition nested : Py :=
  PObj "Nested" [("secret", PStr "x"); ("visible", PStr "y")].

Definition two_columns : @ModelField collaborators :=
  @mkModelField collaborators (mkBase (Some "Nested") None PNone) (Some ∅)
    "simple" (PDict []) PNone 2 (PList [PStr "secret"]) PNone.

Definition field_info : Py := PObj "FieldInfo" [].

(** The five keys of the identifiers of one nested field: group id, form
    id, field name, parent path and an empty last key. *)
Definition address : list string :=
  ["aio"; "form"; "address"; "user"; EmptyString].

Definition world : World :=
  mkWorld (fun n => if Nat.even n then "3b241101e2bb4255" else "8caf4498114d4b30") 0.

Definition args (layout : option Py) (extra : gmap string Py) : @InitArgs collaborators :=
  @mkInitArgs collaborators (mkBase None None PNone) (Some extra)
    None None layout None None None.

End Demo.

(** * Properties *)

Ltac case_globals g :=
  repeat match goal with
         | |- context [existsb ?f g] => destruct (existsb f g)
         end.

(** ** Dispatch *)

Section Dispatch.
Context `{Collaborators}.

Lemma getattr_renderer (s : Style) (self : ModelField) :
  getattr self (style_name s +:+ "_item") = Some (renderer s self).
Proof. by destruct s. Qed.

Lemma render_known_style (s : Style) (self : ModelField) :
  render_type self = style_name s -> _render self = renderer s self.
Proof. intros Hs. unfold _render. rewrite Hs, getattr_renderer. reflexivity. Qed.

(** C1.  When the attribute lookup for the configured render style finds
    nothing, [_render] raises [ValueError] with the message
    "Unknown render type: <style>", leaves the world as it was and returns
    no UI description; when the style is one of 'accordion', 'modal',
    'simple', [_render] is the call of the renderer of that name. *)
Theorem render_dispatch (self : ModelField) (item : Py)
    (aio_id form_id field parent : string) (field_info : Py)
    (g : list string) (w : World) :
  (getattr self (render_type self +:+ "_item") = None ->
   _render self item aio_id form_id field parent field_info g w
     = (Raise (ValueError ("Unknown render type: " +:+ render_type self)), w)
   /\ forall tree w',
        _render self item aio_id form_id field parent field_info g w <> (Ok tree, w'))
  /\ (forall s : Style,
        render_type self = style_name s ->
        _render self item aio_id form_id field parent field_info g w
          = renderer s self item aio_id form_id field parent field_info g w).
Proof.
  split.
  - intros Hnone. unfold _render. rewrite Hnone. split; [reflexivity|].
    intros tree w' Heq. discriminate Heq.
  - intros s Hs. rewrite (render_known_style s self Hs). reflexivity.
Qed.

End Dispatch.

Lemma render_dispatch_witness :
  @getattr Demo.collaborators (Demo.field "tabs" (Demo.mkBase None None PNone))
    "tabs_item" = None
  /\ @_render Demo.collaborators (Demo.field "tabs" (Demo.mkBase None None PNone))
       Demo.nested "aio" "form" "address" "user" Demo.field_info module_globals Demo.world
     = (Raise (ValueError "Unknown render type: tabs"), Demo.world).
Proof.
  split; [reflexivity|].
  apply (proj1 (@render_dispatch Demo.collaborators
                  (Demo.field "tabs" (Demo.mkBase None None PNone))
                  Demo.nested "aio" "form" "address" "user" Demo.field_info
                  module_globals Demo.world)).
  reflexivity.
Defined.

(** ** Construction *)

Section ConstructionProperties.
Context `{Collaborators}.

Lemma keywords_dict_lit (kw : Kwargs) :
  keywords (map (fun kv => (PStr kv.1, kv.2)) kw) = Ok kw.
Proof.
  induction kw as [|[k v] kw IH]; [reflexivity|].
  simpl. rewrite IH. reflexivity.
Qed.

Lemma validate_form_layout_result (v r : Py) :
  validate_form_layout v = Ok r ->
  isinstance_FormLayout r || is_None r = true.
Proof.
  unfold validate_form_layout.
  destruct (isinstance_FormLayout v || is_None v) eqn:Hv.
  - intros [= <-]. exact Hv.
  - destruct v; try discriminate.
    destruct (keywords items) as [kw|e]; [|discriminate].
    simpl. destruct (FormLayout_load kw) as [l|e]; [|discriminate].
    simpl. intros [= <-]. reflexivity.
Qed.

Lemma validate_form_layout_other (v : Py) :
  isinstance_FormLayout v || is_None v || isinstance_dict v = false ->
  validate_form_layout v = Raise (ValueError form_layout_msg).
Proof. by destruct v. Qed.

Lemma init_invalid_layout (a : InitArgs) (v : Py) :
  init_form_layout a = Some v ->
  validate_form_layout v = Raise (ValueError form_layout_msg) ->
  exists errs,
    ModelField_init a = Raise (ValidationError errs)
    /\ ("form_layout", "Value error, " +:+ form_layout_msg) ∈ errs.
Proof.
  intros Ha Hv. unfold ModelField_init, check_form_layout, check_render_type.
  rewrite Ha, Hv.
  destruct (init_render_type a) as [s|]; [destruct (render_type_literal s)|];
    eexists; (split; [reflexivity|]); set_solver.
Qed.

(** C2.  The layout validator returns a [FormLayout] instance or [None]
    unchanged; on a dict it returns what [FormLayout.load] makes of the
    dict's items as keyword arguments, which is a [FormLayout] instance
    whenever the validator returns; on a value of any other type it raises
    [ValueError], and constructing a [ModelField] with such a value raises
    the (ValueError-derived) validation error, so that no instance exists to
    render. *)
Theorem validate_form_layout_cases (v : Py) :
  (isinstance_FormLayout v || is_None v = true -> validate_form_layout v = Ok v)
  /\ (forall kw : Kwargs,
        v = dict_lit kw ->
        validate_form_layout v
          = (l ← FormLayout_load kw; Ok (PFormLayout l.1 l.2)))
  /\ (forall r, isinstance_dict v = true -> validate_form_layout v = Ok r ->
        isinstance_FormLayout r = true)
  /\ (isinstance_FormLayout v || is_None v || isinstance_dict v = false ->
        validate_form_layout v = Raise (ValueError form_layout_msg)
        /\ forall a : InitArgs,
             init_form_layout a = Some v ->
             exists e, ModelField_init a = Raise e /\ is_ValueError e = true).
Proof.
  split; [|split; [|split]].
  - intros Hv. unfold validate_form_layout. rewrite Hv. reflexivity.
  - intros kw ->. unfold validate_form_layout, dict_lit. simpl.
    rewrite keywords_dict_lit. reflexivity.
  - intros r Hd Hr. destruct v; try discriminate.
    unfold validate_form_layout in Hr. simpl in Hr.
    destruct (keywords items) as [kw|e]; [|discriminate].
    simpl in Hr. destruct (FormLayout_load kw) as [l|e]; [|discriminate].
    simpl in Hr. injection Hr as <-. reflexivity.
  - intros Hother. pose proof (validate_form_layout_other v Hother) as Hraise.
    split; [exact Hraise|]. intros a Ha.
    destruct (init_invalid_layout a v Ha Hraise) as (errs & Hinit & _).
    exists (ValidationError errs). split; [exact Hinit|reflexivity].
Qed.

Lemma dict_truthy_lookup (m : gmap string Py) (k : string) (v : Py) :
  m !! k = Some v -> dict_truthy m = true.
Proof.
  intros Hk. unfold dict_truthy.
  destruct (size m) eqn:Hsize; [|reflexivity].
  apply map_size_empty_iff in Hsize. subst m.
  rewrite lookup_empty in Hk. discriminate.
Qed.

Lemma model_post_init_adopts (self : ModelField) (m : gmap string Py) (v : Py) :
  form_layout self = PNone ->
  model_extra self = Some m ->
  m !! "sections" = Some v ->
  v <> PNone ->
  exists self', model_post_init self = Ok self' /\ form_layout self' = v.
Proof.
  intros Hl Hm Hs Hv. unfold model_post_init.
  destruct (is_None (fields_repr _)); simpl; rewrite Hm, Hl;
    rewrite (dict_truthy_lookup m _ _ Hs); unfold dict_get, dict_item;
    rewrite Hs; simpl;
    (destruct v; first [contradiction | eexists; split; reflexivity]).
Qed.

Lemma model_post_init_keeps (self : ModelField) :
  form_layout self <> PNone ->
  exists self',
    model_post_init self = Ok self' /\ form_layout self' = form_layout self.
Proof.
  intros Hl. unfold model_post_init.
  destruct (is_None (fields_repr _)); simpl;
    (destruct (form_layout self) eqn:Hf; try contradiction);
    destruct (model_extra self); simpl; eexists; (split; [reflexivity|]);
    simpl; by rewrite Hf.
Qed.

(** The post-init hook never raises: the subscript is taken only after the
    lookup has been seen to succeed. *)
Lemma model_post_init_total (self : ModelField) :
  exists self', model_post_init self = Ok self'.
Proof.
  unfold model_post_init.
  match goal with |- context [match model_extra ?s with _ => _ end] =>
    destruct (model_extra s) as [m|]; [|eexists; reflexivity]
  end.
  unfold dict_get, dict_item.
  destruct (m !! "sections") as [v|]; simpl.
  - match goal with
    | |- context [if ?b then _ else _] => destruct b
    end; eexists; reflexivity.
  - rewrite andb_false_r. eexists; reflexivity.
Qed.

(** C4.  Constructing a [ModelField] (with a valid render style) whose
    extras hold a "sections" value other than [None]: when [form_layout] is
    left out (or given as [None])
    the instance's [form_layout] after [model_post_init] is that value;
    when a layout is given and validates to a layout object, the instance
    keeps that layout and the extra is not used. *)
Theorem legacy_sections_adopted (a : InitArgs) (m : gmap string Py) (v : Py) :
  init_extra a = Some m ->
  m !! "sections" = Some v ->
  v <> PNone ->
  (forall rt, init_render_type a = Some rt -> render_type_literal rt = true) ->
  (init_form_layout a = None \/ init_form_layout a = Some PNone ->
   exists self, ModelField_init a = Ok self /\ form_layout self = v)
  /\ (forall given layout : Py,
        init_form_layout a = Some given ->
        validate_form_layout given = Ok layout ->
        layout <> PNone ->
        exists self, ModelField_init a = Ok self /\ form_layout self = layout).
Proof.
  intros Hm Hs Hv Hrt.
  assert (Hcheck : exists rt, check_render_type (init_render_type a) = Valid rt).
  { unfold check_render_type. destruct (init_render_type a) as [rt|]; [|by eexists].
    rewrite (Hrt rt eq_refl). by eexists. }
  destruct Hcheck as [rt Hcheck].
  split.
  - intros Hnone. unfold ModelField_init. rewrite Hcheck.
    assert (Hl : check_form_layout (init_form_layout a) = Valid PNone)
      by (destruct Hnone as [-> | ->]; reflexivity).
    rewrite Hl. by apply (model_post_init_adopts _ m v).
  - intros given layout Hgiven Hvalid Hlayout.
    unfold ModelField_init, check_form_layout. rewrite Hcheck, Hgiven, Hvalid.
    by apply (model_post_init_keeps (mkModelField _ _ _ _ _ layout _ _ _)).
Qed.

(** C9.  When the validator turns a dict into a layout, validating that
    layout again returns it unchanged, and constructing the field from the
    dict gives the same outcome as constructing it from the layout; a
    [FormLayout] instance goes through the validator unchanged. *)
Theorem normalization_idempotent (items : list (Py * Py)) (layout : Py) :
  validate_form_layout (PDict items) = Ok layout ->
  validate_form_layout layout = Ok layout
  /\ (forall a : InitArgs,
        init_form_layout a = Some (PDict items) ->
        ModelField_init a = ModelField_init (with_form_layout a (Some layout)))
  /\ (forall cls fields,
        validate_form_layout (PFormLayout cls fields) = Ok (PFormLayout cls fields)).
Proof.
  intros Hvalid.
  assert (Hagain : validate_form_layout layout = Ok layout).
  { pose proof (validate_form_layout_result _ _ Hvalid) as Hres.
    unfold validate_form_layout. rewrite Hres. reflexivity. }
  split; [exact Hagain|]. split; [|reflexivity].
  intros a Ha. unfold ModelField_init, check_form_layout.
  rewrite Ha, Hvalid. simpl. rewrite Hagain. reflexivity.
Qed.

End ConstructionProperties.

Lemma validate_form_layout_cases_witness :
  @validate_form_layout Demo.collaborators (PInt 3)
    = Raise (ValueError form_layout_msg)
  /\ exists e, @ModelField_init Demo.collaborators (Demo.args (Some (PInt 3)) ∅) = Raise e
               /\ is_ValueError e = true.
Proof.
  destruct (proj2 (proj2 (proj2
              (@validate_form_layout_cases Demo.collaborators (PInt 3)))) eq_refl)
    as [Hraise Hinit].
  split; [exact Hraise|].
  apply Hinit. reflexivity.
Defined.

Lemma legacy_sections_adopted_witness :
  exists self,
    @ModelField_init Demo.collaborators
      (Demo.args None {[ "sections" := PStr "legacy" ]}) = Ok self
    /\ form_layout self = PStr "legacy".
Proof.
  refine (proj1 (@legacy_sections_adopted Demo.collaborators
                   (Demo.args None {[ "sections" := PStr "legacy" ]})
                   {[ "sections" := PStr "legacy" ]} (PStr "legacy")
                   eq_refl _ _ _) _).
  - vm_compute. reflexivity.
  - discriminate.
  - discriminate.
  - left. reflexivity.
Defined.

Lemma normalization_idempotent_witness :
  @validate_form_layout Demo.collaborators
    (PFormLayout "FormLayout" [("layout", PStr "grid")])
  = Ok (PFormLayout "FormLayout" [("layout", PStr "grid")])
  /\ @ModelField_init Demo.collaborators
       (Demo.args (Some (dict_lit [("layout", PStr "grid")])) ∅)
     = @ModelField_init Demo.collaborators
         (Demo.args (Some (PFormLayout "FormLayout" [("layout", PStr "grid")])) ∅).
Proof.
  destruct (@normalization_idempotent Demo.collaborators
              [(PStr "layout", PStr "grid")]
              (PFormLayout "FormLayout" [("layout", PStr "grid")]) eq_refl)
    as (Hagain & Hinit & _).
  split; [exact Hagain|].
  apply (Hinit (Demo.args (Some (dict_lit [("layout", PStr "grid")])) ∅)).
  reflexivity.
Defined.

(** ** Rendering *)

Section RenderingProperties.
Context `{Collaborators}.
Variables (self : ModelField) (item : Py).
Variables (aio_id form_id field parent : string) (field_info : Py).



Lemma accordion_item_NameError (w : World) :
  accordion_item self item aio_id form_id field parent field_info module_globals w
    = (Raise (NameError "fac"), w).
Proof. reflexivity. Qed.

(** C6.  The module binds neither [fac] nor [uuid]: every call of
    [accordion_item] raises [NameError] on [fac] and returns no UI
    description. *)
Theorem accordion_item_raises (w : World) :
  accordion_item self item aio_id form_id field parent field_info module_globals w
    = (Raise (NameError "fac"), w)
  /\ forall tree w',
       accordion_item self item aio_id form_id field parent field_info
         module_globals w <> (Ok tree, w').
Proof.
  split; [apply accordion_item_NameError|].
  intros tree w'. rewrite accordion_item_NameError. discriminate.
Qed.

(** With [fac] and [uuid] bound, the accordion carries the key drawn from
    the world, and the draw is used up. *)
Lemma accordion_item_key (w : World) :
  exists rest,
    accordion_item self item aio_id form_id field parent field_info
      ("fac" :: "uuid" :: module_globals) w
    = (Ok (PComp "fac.AntdAccordion" []
             (("items",
               PList
                 [dict_lit
                    [("title",
                      py_of_opt (get_title (inherited self) field_info field));
                     ("key", PStr (uuid_supply w (uuid_drawn w)));
                     ("children",
                      accordion_panel self item aio_id form_id field parent
                        (get_title (inherited self) field_info field)
                        (get_description (inherited self) field_info)
                        (get_str_discriminator field_info))]])
              :: rest)),
       mkWorld (uuid_supply w) (S (uuid_drawn w))).
Proof. eexists. unfold accordion_item. cbn. reflexivity. Qed.


(** Two successive accordion renders, once [fac] and [uuid] are bound,
    differ as soon as the two keys drawn differ. *)
Lemma accordion_item_not_repeatable (w w1 w2 : World) (r1 r2 : Outcome Py) :
  uuid_supply w (uuid_drawn w) <> uuid_supply w (S (uuid_drawn w)) ->
  accordion_item self item aio_id form_id field parent field_info
    ("fac" :: "uuid" :: module_globals) w = (r1, w1) ->
  accordion_item self item aio_id form_id field parent field_info
    ("fac" :: "uuid" :: module_globals) w1 = (r2, w2) ->
  r1 <> r2.
Proof.
  intros Hkeys H1 H2.
  destruct (accordion_item_key w) as [rest Hw]. rewrite Hw in H1.
  injection H1 as <- <-.
  destruct (accordion_item_key (mkWorld (uuid_supply w) (S (uuid_drawn w))))
    as [rest' Hw1].
  rewrite Hw1 in H2. injection H2 as <- _. simpl.
  intros Heq. apply Hkeys. unfold dict_lit in Heq. simpl in Heq. congruence.
Qed.

Lemma modal_item_ids (w : World) :
  rendered_ids
    (modal_item self item aio_id form_id field parent field_info module_globals w)
  = Some (modal_control_ids aio_id form_id field parent).
Proof.
  unfold rendered_ids. simpl.
  destruct (get_title (inherited self) field_info field); reflexivity.
Qed.

(** C7.  For each of the three renderers, under any set of module globals,
    two calls on the same arguments give the same control identifiers
    whatever the worlds they run in; the modal render gives exactly the
    edit, modal and save identifiers built from the group id, form id,
    field name and parent path; the simple render gives none. *)
Theorem control_ids_deterministic (s : Style) (g : list string) (w1 w2 : World) :
  rendered_ids
    (renderer s self item aio_id form_id field parent field_info g w1)
  = rendered_ids
      (renderer s self item aio_id form_id field parent field_info g w2)
  /\ rendered_ids
       (modal_item self item aio_id form_id field parent field_info
          module_globals w1)
     = Some (modal_control_ids aio_id form_id field parent)
  /\ rendered_ids
       (simple_item self item aio_id form_id field parent field_info
          module_globals w1)
     = Some [].
Proof.
  split; [|split].
  - destruct s; unfold renderer, accordion_item, modal_item, simple_item,
      rendered_ids, load_global, uuid4_hex, mbind, M_bind, mret, M_ret;
      case_globals g; reflexivity.
  - apply modal_item_ids.
  - unfold rendered_ids. simpl.
    destruct (get_title (inherited self) field_info field);
      destruct (get_description (inherited self) field_info); reflexivity.
Qed.

(** C8.  With render style 'simple', the description [_render] returns
    holds exactly one sub-form call, and that call receives the object, the
    identifiers, the joined path and the configuration's field overrides,
    layout, read-only flag, column count, exclusions and ordering as they
    are. *)
Theorem simple_passes_configuration :
  render_type self = "simple" ->
  exists tree kw,
    (forall w,
       _render self item aio_id form_id field parent field_info module_globals w
         = (Ok tree, w))
    /\ sub_form_calls tree = [kw]
    /\ kw = [("item", item);
             ("aio_id", PStr aio_id);
             ("form_id", PStr form_id);
             ("path", PStr (get_fullpath parent field));
             ("fields_repr", fields_repr self);
             ("form_layout", form_layout self);
             ("read_only", read_only (inherited self));
             ("form_cols", PInt (form_cols self));
             ("excluded_fields", excluded_fields self);
             ("fields_order", fields_order self)]
    /\ kwarg "form_cols" kw = Some (PInt (form_cols self))
    /\ kwarg "excluded_fields" kw = Some (excluded_fields self).
Proof.
  intros Hs. eexists. eexists. split; [|split; [|split; [reflexivity|split]]].
  - intros w.
    rewrite (render_known_style Simple self Hs). reflexivity.
  - unfold sub_form_calls.
    destruct (get_title (inherited self) field_info field);
      destruct (get_description (inherited self) field_info); reflexivity.
  - reflexivity.
  - reflexivity.
Qed.

(** C10, as amended.  The simple render returns a description whose
    description lines are the one dimmed text exactly when title and
    description are both not [None], so none when the title is [None]; the
    panel the accordion builds holds its description line exactly when
    title and description are both non-empty, so none when the title is
    [None] or empty. *)
Theorem description_needs_title :
  (exists tree,
     (forall w,
        simple_item self item aio_id form_id field parent field_info
          module_globals w = (Ok tree, w))
     /\ description_elements tree
        = list_mul
            (is_not_None (get_title (inherited self) field_info field)
             && is_not_None (get_description (inherited self) field_info))
            [simple_description (get_description (inherited self) field_info)]
     /\ (get_title (inherited self) field_info field = None ->
         description_elements tree = []))
  /\ (forall discriminator,
        description_elements
          (accordion_panel self item aio_id form_id field parent
             (get_title (inherited self) field_info field)
             (get_description (inherited self) field_info) discriminator)
        = list_mul
            (truthy (get_title (inherited self) field_info field)
             && truthy (get_description (inherited self) field_info))
            [accordion_description (get_description (inherited self) field_info)])
  /\ (truthy (get_title (inherited self) field_info field) = false ->
      forall discriminator,
        description_elements
          (accordion_panel self item aio_id form_id field parent
             (get_title (inherited self) field_info field)
             (get_description (inherited self) field_info) discriminator)
        = []).
Proof.
  split; [|split].
  - eexists. split; [intros w; reflexivity|].
    unfold description_elements.
    destruct (get_title (inherited self) field_info field);
      destruct (get_description (inherited self) field_info);
      (split; [reflexivity | try discriminate; reflexivity]).
  - intros discriminator. unfold accordion_panel, description_elements.
    destruct (get_title (inherited self) field_info field);
      destruct (get_description (inherited self) field_info);
      simpl;
      repeat match goal with
             | |- context [String.eqb ?x EmptyString] =>
                 destruct (String.eqb x EmptyString)
             end;
      reflexivity.
  - intros Htitle discriminator. unfold accordion_panel, description_elements.
    rewrite Htitle. simpl.
    destruct (truthy (get_description (inherited self) field_info)); reflexivity.
Qed.

End RenderingProperties.


Lemma simple_passes_configuration_witness :
  exists tree kw,
    (forall w,
       @_render Demo.collaborators Demo.two_columns Demo.nested
         "aio" "form" "address" "user" Demo.field_info module_globals w = (Ok tree, w))
    /\ sub_form_calls tree = [kw]
    /\ kwarg "form_cols" kw = Some (PInt 2)
    /\ kwarg "excluded_fields" kw = Some (PList [PStr "secret"]).
Proof.
  destruct (@simple_passes_configuration Demo.collaborators Demo.two_columns
              Demo.nested "aio" "form" "address" "user" Demo.field_info eq_refl)
    as (tree & kw & Hrun & Hcalls & _ & Hcols & Hexcluded).
  exists tree, kw. split; [exact Hrun|]. split; [exact Hcalls|].
  split; [exact Hcols | exact Hexcluded].
Defined.

Lemma simple_empty_title_keeps_description :
  truthy (@get_title Demo.collaborators
            (Demo.mkBase (Some EmptyString) (Some "details") PNone) Demo.field_info "address")
    = false
  /\ exists tree,
       @simple_item Demo.collaborators
         (Demo.field "simple" (Demo.mkBase (Some EmptyString) (Some "details") PNone))
         Demo.nested "aio" "form" "address" "user" Demo.field_info
         module_globals Demo.world = (Ok tree, Demo.world)
       /\ description_elements tree = [@simple_description (Some "details")]
       /\ description_elements tree <> [].
Proof.
  split; [reflexivity|].
  eexists. split; [reflexivity|]. split; [reflexivity|discriminate].
Qed.

Lemma description_needs_title_witness :
  exists tree,
    (forall w,
       @simple_item Demo.collaborators
         (Demo.field "simple" (Demo.mkBase None (Some "details") PNone))
         Demo.nested "aio" "form" "address" "user" Demo.field_info module_globals w
       = (Ok tree, w))
    /\ description_elements tree = [].
Proof.
  destruct (proj1 (@description_needs_title Demo.collaborators
                     (Demo.field "simple" (Demo.mkBase None (Some "details") PNone))
                     Demo.nested "aio" "form" "address" "user" Demo.field_info))
    as (tree & Hrun & _ & Hnone).
  exists tree. split; [exact Hrun|]. apply Hnone. reflexivity.
Defined.

(** ** The modal's open state *)

Lemma modal_item_mounted_closed `{Collaborators} (self : ModelField) (item : Py)
    (aio_id form_id field parent : string) (field_info : Py) :
  exists tree,
    (forall w,
       modal_item self item aio_id form_id field parent field_info module_globals w
         = (Ok tree, w))
    /\ mounted_open <$> filter (fun n => is_kind "dmc.Modal" n = true) (nodes tree)
       = [false].
Proof.
  eexists. split; [intros w; unfold modal_item; cbn; reflexivity|].
  simpl. destruct (get_title (inherited self) field_info field); reflexivity.
Qed.

Lemma step_edit (page : Page) (keys : Address) :
  length keys = 5%nat ->
  step page (Click edit_tag keys) = <[(modal_tag, keys, "opened") := PBool true]> page.
Proof.
  intros Hlen.
  destruct keys as [|k1 [|k2 [|k3 [|k4 [|k5 [|k6 rest]]]]]]; try discriminate Hlen.
  reflexivity.
Qed.

Lemma step_save (page : Page) (keys : Address) :
  length keys = 5%nat ->
  step page (Click modal_save_tag keys)
    = <[(modal_tag, keys, "opened") := PBool false]> page.
Proof.
  intros Hlen.
  destruct keys as [|k1 [|k2 [|k3 [|k4 [|k5 [|k6 rest]]]]]]; try discriminate Hlen.
  reflexivity.
Qed.

Lemma modal_state_edit (page : Page) (keys : Address) :
  length keys = 5%nat -> modal_state (step page (Click edit_tag keys)) keys = Open.
Proof.
  intros Hlen. rewrite (step_edit page keys Hlen).
  unfold modal_state. rewrite lookup_insert_eq. reflexivity.
Qed.

Lemma modal_state_save (page : Page) (keys : Address) :
  length keys = 5%nat ->
  modal_state (step page (Click modal_save_tag keys)) keys = Closed.
Proof.
  intros Hlen. rewrite (step_save page keys Hlen).
  unfold modal_state. rewrite lookup_insert_eq. reflexivity.
Qed.

Lemma resolve_all_MATCH (keys : Address) :
  length keys = 5%nat -> resolve all_MATCH keys = keys.
Proof.
  intros Hlen.
  destruct keys as [|k1 [|k2 [|k3 [|k4 [|k5 [|k6 rest]]]]]]; try discriminate Hlen.
  reflexivity.
Qed.

Lemma fire_other (cb : Callback) (page : Page) (tag : string) (keys keys' : Address) :
  resolve (dep_keys (cb_output cb)) keys' <> keys ->
  modal_state (fire cb tag keys' page) keys = modal_state page keys.
Proof.
  intros Hne. unfold fire.
  destruct (_ && _ && _); [|reflexivity].
  destruct (clientside_function _ _); [|reflexivity].
  unfold modal_state. rewrite lookup_insert_ne by congruence. reflexivity.
Qed.

(** A click on the controls of another field leaves this modal alone. *)
Lemma modal_state_other (page : Page) (tag : string) (keys keys' : Address) :
  length keys' = 5%nat -> keys' <> keys ->
  modal_state (step page (Click tag keys')) keys = modal_state page keys.
Proof.
  intros Hlen Hne. unfold step, callbacks. cbn [foldl].
  rewrite !fire_other; [reflexivity | |];
    cbn [close_on_save open_on_edit cb_output dep_keys];
    by rewrite resolve_all_MATCH.
Qed.

(** C3.  The modal render mounts its [dmc.Modal] closed and no callback runs
    at page load, so the modal of a field starts closed; a click on the
    field's edit control takes it from closed to open, a click on its save
    control from open to closed, hence edit then save from the start ends
    closed; and from every state some click leads to the other state. *)
Theorem modal_open_close (keys : Address) :
  length keys = 5%nat ->
  (forall (C : Collaborators) (self : @ModelField C) (item : Py)
          (aio_id form_id field parent : string) (field_info : Py),
      exists tree,
        (forall w,
           modal_item self item aio_id form_id field parent field_info
             module_globals w = (Ok tree, w))
        /\ mounted_open <$> filter (fun n => is_kind "dmc.Modal" n = true) (nodes tree)
           = [false])
  /\ initial_calls = []
  /\ modal_state fresh_page keys = Closed
  /\ (forall page,
        modal_state page keys = Closed ->
        modal_state (step page (Click edit_tag keys)) keys = Open)
  /\ (forall page,
        modal_state page keys = Open ->
        modal_state (step page (Click modal_save_tag keys)) keys = Closed)
  /\ modal_state
       (run_events fresh_page [Click edit_tag keys; Click modal_save_tag keys]) keys
     = Closed
  /\ (forall page, exists e,
        modal_state (step page e) keys <> modal_state page keys).
Proof.
  intros Hlen.
  split; [intros C; apply modal_item_mounted_closed|].
  split; [reflexivity|]. split; [reflexivity|].
  split; [intros page _; by apply modal_state_edit|].
  split; [intros page _; by apply modal_state_save|].
  split.
  - unfold run_events. simpl foldl. by apply modal_state_save.
  - intros page. destruct (modal_state page keys) eqn:Hstate.
    + exists (Click edit_tag keys). rewrite modal_state_edit by done. discriminate.
    + exists (Click modal_save_tag keys). rewrite modal_state_save by done.
      discriminate.
Qed.

Lemma modal_open_close_witness :
  modal_state fresh_page Demo.address = Closed
  /\ modal_state (step fresh_page (Click edit_tag Demo.address))
       Demo.address = Open
  /\ modal_state
       (run_events fresh_page
          [Click edit_tag Demo.address;
           Click modal_save_tag Demo.address])
       Demo.address = Closed.
Proof.
  destruct (modal_open_close Demo.address eq_refl)
    as (_ & _ & Hstart & Hedit & _ & Hround & _).
  split; [exact Hstart|]. split; [|exact Hround].
  apply Hedit. exact Hstart.
Defined.

(** * Further properties *)

(** ** The post-init hook and the constructor *)

Section PostInit.
Context `{Collaborators}.

Lemma model_post_init_spec (self : ModelField) :
  exists self',
    model_post_init self = Ok self'
    /\ form_layout self'
       = (if is_None (form_layout self)
          then match model_extra self with
               | Some extra => dict_get extra "sections"
               | None => PNone
               end
          else form_layout self)
    /\ fields_repr self'
       = (if is_None (fields_repr self) then PDict [] else fields_repr self)
    /\ model_extra self' = model_extra self
    /\ render_type self' = render_type self
    /\ form_cols self' = form_cols self
    /\ excluded_fields self' = excluded_fields self
    /\ fields_order self' = fields_order self.
Proof.
  unfold model_post_init, set_form_layout, set_fields_repr, set_inherited.
  simpl. destruct (is_None (fields_repr self)) eqn:Hrepr; simpl;
    (destruct (model_extra self) as [m|];
     [| eexists; split; [reflexivity|]; simpl;
        destruct (form_layout self); repeat split; reflexivity ]);
    unfold dict_get, dict_item;
    (destruct (m !! "sections") as [v|] eqn:Hs; simpl;
     [ rewrite (dict_truthy_lookup m _ _ Hs);
       destruct (form_layout self) eqn:Hl; destruct v; simpl;
       eexists; (split; [reflexivity|]); simpl; rewrite ?Hl;
       repeat split; reflexivity
     | rewrite andb_false_r; eexists; (split; [reflexivity|]); simpl;
       destruct (form_layout self); repeat split; reflexivity ]).
Qed.

(** X1.  [model_post_init] never raises, the subscript
    [model_extra["sections"]] included; afterwards [form_layout] is the
    former [form_layout] when that was not [None] and otherwise what
    [model_extra.get("sections")] gives ([None] without extras), and
    [fields_repr] is never [None]. *)
Theorem model_post_init_layout (self : ModelField) :
  exists self',
    model_post_init self = Ok self'
    /\ form_layout self'
       = (if is_None (form_layout self)
          then match model_extra self with
               | Some extra => dict_get extra "sections"
               | None => PNone
               end
          else form_layout self)
    /\ fields_repr self' <> PNone
    /\ (fields_repr self <> PNone -> fields_repr self' = fields_repr self).
Proof.
  destruct (model_post_init_spec self) as (self' & Hrun & Hl & Hr & _).
  exists self'. split; [exact Hrun|]. split; [exact Hl|]. rewrite Hr.
  split; destruct (fields_repr self); simpl; try discriminate; try reflexivity.
  intros Hne. contradiction.
Qed.

(** X2.  Running [model_post_init] again on its own result succeeds and
    changes none of the attributes this class declares. *)
Theorem model_post_init_idempotent (self once : ModelField) :
  model_post_init self = Ok once ->
  exists twice,
    model_post_init once = Ok twice
    /\ form_layout twice = form_layout once
    /\ fields_repr twice = fields_repr once
    /\ model_extra twice = model_extra once
    /\ render_type twice = render_type once
    /\ form_cols twice = form_cols once
    /\ excluded_fields twice = excluded_fields once
    /\ fields_order twice = fields_order once.
Proof.
  intros Hrun.
  destruct (model_post_init_spec self)
    as (once' & Hrun' & Hl & Hr & Hx & _).
  rewrite Hrun in Hrun'. injection Hrun' as <-.
  destruct (model_post_init_spec once)
    as (twice & Hrun2 & Hl2 & Hr2 & Hrest).
  exists twice. split; [exact Hrun2|]. split; [|split; [|exact Hrest]].
  - rewrite Hl2, Hx, Hl.
    destruct (is_None (form_layout self)) eqn:Hself.
    + match goal with |- (if ?b then _ else _) = _ => destruct b end; reflexivity.
    + rewrite Hself. reflexivity.
  - rewrite Hr2, Hr.
    destruct (is_None (fields_repr self)) eqn:Hself; [reflexivity|].
    rewrite Hself. reflexivity.
Qed.

Lemma render_type_literal_style (rt : string) :
  render_type_literal rt = true -> exists s : Style, rt = style_name s.
Proof.
  unfold render_type_literal. intros Hrt.
  apply orb_true_iff in Hrt as [Hrt | Hrt];
    [apply orb_true_iff in Hrt as [Hrt | Hrt]|];
    apply String.eqb_eq in Hrt.
  - by exists Accordion.
  - by exists Modal.
  - by exists Simple.
Qed.

Lemma init_ok_inv (a : InitArgs) (self : ModelField) :
  ModelField_init a = Ok self ->
  exists rt layout,
    render_type_literal rt = true
    /\ check_form_layout (init_form_layout a) = Valid layout
    /\ model_post_init
         (mkModelField _ (init_inherited a) (init_extra a) rt
            (default (PDict []) (init_fields_repr a)) layout
            (default 4 (init_form_cols a))
            (default PNone (init_excluded_fields a))
            (default PNone (init_fields_order a))) = Ok self.
Proof.
  unfold ModelField_init, check_render_type.
  destruct (init_render_type a) as [rt|].
  - destruct (render_type_literal rt) eqn:Hrt;
      destruct (check_form_layout (init_form_layout a)) as [layout|errs|e] eqn:Hl;
      try discriminate.
    intros Hrun. by exists rt, layout.
  - destruct (check_form_layout (init_form_layout a)) as [layout|errs|e] eqn:Hl;
      try discriminate.
    intros Hrun. by exists "accordion", layout.
Qed.

(** X3.  Every instance the constructor returns carries one of the three
    render styles, so [_render] on it is the call of that style's renderer
    and never the "Unknown render type" error. *)
Theorem constructed_instance_dispatches (a : InitArgs) (self : ModelField) :
  ModelField_init a = Ok self ->
  exists s : Style,
    render_type self = style_name s
    /\ _render self = renderer s self
    /\ forall item aio_id form_id field parent field_info g w,
         _render self item aio_id form_id field parent field_info g w
         <> (Raise (ValueError ("Unknown render type: " +:+ render_type self)), w).
Proof.
  intros Hinit.
  destruct (init_ok_inv a self Hinit) as (rt & layout & Hrt & _ & Hpost).
  destruct (model_post_init_spec
              (mkModelField _ (init_inherited a) (init_extra a) rt
                 (default (PDict []) (init_fields_repr a)) layout
                 (default 4 (init_form_cols a))
                 (default PNone (init_excluded_fields a))
                 (default PNone (init_fields_order a))))
    as (self' & Hrun & _ & _ & _ & Hstyle & _).
  rewrite Hpost in Hrun. injection Hrun as <-. simpl in Hstyle.
  destruct (render_type_literal_style rt Hrt) as [s Hs].
  exists s. rewrite Hstyle. split; [exact Hs|].
  assert (Hdispatch : _render self = renderer s self)
    by (apply render_known_style; congruence).
  split; [exact Hdispatch|].
  intros item aio_id form_id field parent field_info g w. rewrite Hdispatch.
  destruct s; unfold renderer, accordion_item, modal_item, simple_item,
    load_global, uuid4_hex, mbind, M_bind, mret, M_ret;
    case_globals g; discriminate.
Qed.

(** X4.  The [form_layout] of an instance the constructor returns is the
    validated layout when a layout other than [None] was given, and
    otherwise the "sections" extra exactly as it was passed, without going
    through the validator: a [FormLayout] instance, [None], or the raw
    legacy value. *)
Theorem constructed_instance_layout (a : InitArgs) (self : ModelField) :
  ModelField_init a = Ok self ->
  (forall v, init_form_layout a = Some v -> v <> PNone ->
     validate_form_layout v = Ok (form_layout self)
     /\ isinstance_FormLayout (form_layout self) = true)
  /\ (init_form_layout a = None \/ init_form_layout a = Some PNone ->
      form_layout self
      = match init_extra a with
        | Some extra => dict_get extra "sections"
        | None => PNone
        end).
Proof.
  intros Hinit.
  destruct (init_ok_inv a self Hinit) as (rt & layout & _ & Hcheck & Hpost).
  destruct (model_post_init_spec
              (mkModelField _ (init_inherited a) (init_extra a) rt
                 (default (PDict []) (init_fields_repr a)) layout
                 (default 4 (init_form_cols a))
                 (default PNone (init_excluded_fields a))
                 (default PNone (init_fields_order a))))
    as (self' & Hrun & Hl & _).
  rewrite Hpost in Hrun. injection Hrun as <-. simpl in Hl.
  split.
  - intros v Hv Hne. unfold check_form_layout in Hcheck. rewrite Hv in Hcheck.
    destruct (validate_form_layout v) as [v'|e] eqn:Hvalid.
    + injection Hcheck as ->.
      pose proof (validate_form_layout_result _ _ Hvalid) as Hres.
      assert (Hlayout : isinstance_FormLayout layout = true).
      { unfold validate_form_layout in Hvalid.
        destruct (isinstance_FormLayout v || is_None v) eqn:Hcase.
        - injection Hvalid as <-. destruct v; try discriminate; [contradiction|done].
        - destruct v; try discriminate.
          destruct (keywords items) as [kw|e]; [|discriminate]. simpl in Hvalid.
          destruct (FormLayout_load kw) as [l|e]; [|discriminate]. simpl in Hvalid.
          by injection Hvalid as <-. }
      destruct layout; try discriminate. simpl in Hl. rewrite Hl. by split.
    + destruct e; discriminate.
  - intros Hnone. unfold check_form_layout in Hcheck.
    destruct Hnone as [Hnone | Hnone]; rewrite Hnone in Hcheck;
      [|simpl in Hcheck]; injection Hcheck as <-; exact Hl.
Qed.

(** X5.  A dict with a key that is not a string never reaches
    [FormLayout.load]: unpacking it raises [TypeError], which is not the
    validator's [ValueError] and leaves the constructor as it is. *)
Theorem validate_form_layout_non_string_key (items : list (Py * Py)) :
  (exists k v, (k, v) ∈ items /\ forall s, k <> PStr s) ->
  exists msg,
    validate_form_layout (PDict items) = Raise (TypeError msg)
    /\ forall a : InitArgs,
         init_form_layout a = Some (PDict items) ->
         ModelField_init a = Raise (TypeError msg).
Proof.
  intros Hkey.
  assert (Hkw : keywords items = Raise (TypeError "keywords must be strings")).
  { destruct Hkey as (k & v & Hin & Hk).
    induction items as [|[k' v'] items IH]; [by apply elem_of_nil in Hin|].
    apply elem_of_cons in Hin as [Heq | Hin].
    - injection Heq as <- <-. destruct k; try reflexivity. by destruct (Hk s).
    - simpl. rewrite (IH Hin). by destruct k'. }
  exists "keywords must be strings".
  assert (Hvalid : validate_form_layout (PDict items)
                   = Raise (TypeError "keywords must be strings")).
  { unfold validate_form_layout. simpl. rewrite Hkw. reflexivity. }
  split; [exact Hvalid|].
  intros a Ha. unfold ModelField_init, check_form_layout. rewrite Ha, Hvalid.
  by destruct (check_render_type (init_render_type a)).
Qed.

End PostInit.

(** ** What the three renders show *)

Section RenderedContent.
Context `{Collaborators}.
Variables (self : ModelField) (item : Py).
Variables (aio_id form_id field parent : string) (field_info : Py).

(** X6.  The simple and the modal render embed the same sub-form call; the
    panel the accordion builds embeds that call with one more keyword,
    [discriminator], which the other two never pass. *)
Theorem sub_form_calls_agree :
  exists simple_tree modal_tree kw accordion_kw,
    (forall w,
       simple_item self item aio_id form_id field parent field_info
         module_globals w = (Ok simple_tree, w))
    /\ (forall w,
         modal_item self item aio_id form_id field parent field_info
           module_globals w = (Ok modal_tree, w))
    /\ sub_form_calls simple_tree = [kw]
    /\ sub_form_calls modal_tree = [kw]
    /\ sub_form_calls
         (accordion_panel self item aio_id form_id field parent
            (get_title (inherited self) field_info field)
            (get_description (inherited self) field_info)
            (get_str_discriminator field_info))
       = [accordion_kw]
    /\ kwarg "discriminator" accordion_kw = Some (get_str_discriminator field_info)
    /\ kwarg "discriminator" kw = None
    /\ filter (fun kv => kv.1 <> "discriminator") accordion_kw = kw.
Proof.
  eexists. eexists. eexists. eexists.
  split; [intros w; reflexivity|].
  split; [intros w; unfold modal_item; cbn; reflexivity|].
  unfold sub_form_calls, accordion_panel.
  destruct (get_title (inherited self) field_info field) as [t|];
    destruct (get_description (inherited self) field_info) as [d|]; simpl;
    repeat match goal with
           | |- context [String.eqb ?x EmptyString] =>
               destruct (String.eqb x EmptyString)
           end;
    repeat split; reflexivity.
Qed.

(** X7.  The modal render shows the title twice, as the text of the summary
    row and as the dialog's [title], even when the title is [None]; it has
    no description line, whatever description the field resolves to. *)
Theorem modal_item_shows_title_only :
  exists tree,
    (forall w,
       modal_item self item aio_id form_id field parent field_info
         module_globals w = (Ok tree, w))
    /\ children <$> filter (fun n => is_kind "dmc.Text" n = true) (nodes tree)
       = [Some (py_of_opt (get_title (inherited self) field_info field))]
    /\ prop "title" <$> filter (fun n => is_kind "dmc.Modal" n = true) (nodes tree)
       = [Some (py_of_opt (get_title (inherited self) field_info field))]
    /\ description_elements tree = [].
Proof.
  eexists. split; [intros w; unfold modal_item; cbn; reflexivity|].
  unfold description_elements.
  destruct (get_title (inherited self) field_info field); repeat split; reflexivity.
Qed.

(** X8.  The texts of the simple render are the title, present exactly when
    it is not [None], followed by the description, present exactly when
    title and description are both not [None]; a title of [None] leaves
    the render without any text. *)
Theorem simple_item_texts :
  exists tree,
    (forall w,
       simple_item self item aio_id form_id field parent field_info
         module_globals w = (Ok tree, w))
    /\ children <$> filter (fun n => is_kind "dmc.Text" n = true) (nodes tree)
       = (list_mul (is_not_None (get_title (inherited self) field_info field))
            [Some (py_of_opt (get_title (inherited self) field_info field))]
          ++ list_mul
               (is_not_None (get_title (inherited self) field_info field)
                && is_not_None (get_description (inherited self) field_info))
               [Some (py_of_opt (get_description (inherited self) field_info))])%list
    /\ (get_title (inherited self) field_info field = None ->
        filter (fun n => is_kind "dmc.Text" n = true) (nodes tree) = []).
Proof.
  eexists. split; [intros w; reflexivity|].
  destruct (get_title (inherited self) field_info field);
    destruct (get_description (inherited self) field_info);
    (split; [reflexivity | try discriminate; reflexivity]).
Qed.

End RenderedContent.

(** ** What the callbacks write *)

Lemma keys_match_all_MATCH (keys : Address) :
  keys_match all_MATCH keys = true <-> length keys = 5%nat.
Proof.
  destruct keys as [|k1 [|k2 [|k3 [|k4 [|k5 [|k6 rest]]]]]]; simpl;
    split; (discriminate || reflexivity).
Qed.

Lemma fire_no_tag (cb : Callback) (page : Page) (tag : string) (keys : Address) :
  dep_tag (cb_input cb) <> tag -> fire cb tag keys page = page.
Proof.
  intros Hne. unfold fire.
  by rewrite (proj2 (String.eqb_neq _ _) Hne).
Qed.

Lemma fire_no_keys (cb : Callback) (page : Page) (tag : string) (keys : Address) :
  keys_match (dep_keys (cb_input cb)) keys = false -> fire cb tag keys page = page.
Proof.
  intros Hkeys. unfold fire. rewrite Hkeys. by rewrite andb_false_r.
Qed.

Lemma fire_frame (cb : Callback) (page : Page) (tag : string) (keys : Address)
    (k : string * list string * string) :
  (keys_match (dep_keys (cb_input cb)) keys = true ->
   k <> (dep_tag (cb_output cb), resolve (dep_keys (cb_output cb)) keys,
         dep_property (cb_output cb))) ->
  fire cb tag keys page !! k = page !! k.
Proof.
  intros Hne. unfold fire.
  destruct (_ && _ && keys_match _ _) eqn:Hcond; [|reflexivity].
  apply andb_true_iff in Hcond as [_ Hkeys].
  destruct (clientside_function _ _); [|reflexivity].
  rewrite lookup_insert_ne; [reflexivity|].
  intros Heq. by apply (Hne Hkeys).
Qed.

Lemma step_frame (page : Page) (tag : string) (keys : Address)
    (k : string * list string * string) :
  k <> (modal_tag, keys, "opened") ->
  step page (Click tag keys) !! k = page !! k.
Proof.
  intros Hne. unfold step, callbacks. cbn [foldl].
  rewrite !fire_frame; [reflexivity| |];
    cbn [close_on_save open_on_edit cb_output cb_input dep_keys dep_tag dep_property];
    intros Hkeys; apply keys_match_all_MATCH in Hkeys;
    by rewrite resolve_all_MATCH.
Qed.

Lemma step_other_address (page : Page) (tag : string) (keys keys' : Address) :
  keys' <> keys ->
  modal_state (step page (Click tag keys)) keys' = modal_state page keys'.
Proof.
  intros Hne. unfold modal_state. rewrite step_frame; [reflexivity|].
  congruence.
Qed.

Lemma step_other_tag (page : Page) (tag : string) (keys : Address) :
  tag <> edit_tag -> tag <> modal_save_tag -> step page (Click tag keys) = page.
Proof.
  intros Hedit Hsave. unfold step, callbacks. cbn [foldl].
  rewrite !fire_no_tag; [reflexivity| |];
    cbn [close_on_save open_on_edit cb_input dep_tag]; congruence.
Qed.

(** X9.  A click writes nothing but the [opened] property of the modal that
    has the same five keys as the control clicked: every other entry of the
    page stays as it is, so the modals of other fields keep their state; a
    click on a control that is neither an edit nor a save control, or whose
    identifier does not have five keys, writes nothing at all. *)
Theorem step_writes_only_own_modal (page : Page) (tag : string) (keys : Address) :
  (forall k, k <> (modal_tag, keys, "opened") ->
     step page (Click tag keys) !! k = page !! k)
  /\ (forall keys', keys' <> keys ->
        modal_state (step page (Click tag keys)) keys' = modal_state page keys')
  /\ (tag <> edit_tag -> tag <> modal_save_tag -> step page (Click tag keys) = page)
  /\ (length keys <> 5%nat -> step page (Click tag keys) = page).
Proof.
  split; [intros k; apply step_frame|].
  split; [intros keys'; apply step_other_address|].
  split; [apply step_other_tag|].
  intros Hlen. unfold step, callbacks. cbn [foldl].
  assert (Hkeys : keys_match all_MATCH keys = false).
  { destruct (keys_match all_MATCH keys) eqn:Hm; [|reflexivity].
    by apply keys_match_all_MATCH in Hm. }
  by rewrite !fire_no_keys.
Qed.

Lemma step_automaton (page : Page) (tag : string) (ks keys : Address) :
  length keys = 5%nat ->
  modal_state (step page (Click tag ks)) keys
  = if decide (ks = keys) then modal_automaton (modal_state page keys) tag
    else modal_state page keys.
Proof.
  intros Hlen. destruct (decide (ks = keys)) as [-> | Hne].
  - unfold modal_automaton.
    destruct (String.eqb_spec tag edit_tag) as [-> | Hedit];
      [by apply modal_state_edit|].
    destruct (String.eqb_spec tag modal_save_tag) as [-> | Hsave];
      [by apply modal_state_save|].
    by rewrite step_other_tag.
  - by apply step_other_address.
Qed.

(** X10.  After any sequence of clicks the modal of a field is in the state
    the two-state automaton reaches on the clicks made on that field's own
    controls: open when the last of them was on the edit control, closed
    when it was on the save control, and as at the start when there was
    none. *)
Theorem run_events_automaton (keys : Address) (events : list Event) (page : Page) :
  length keys = 5%nat ->
  modal_state (run_events page events) keys
  = foldl (fun s e =>
             match e with
             | Click tag ks =>
                 if decide (ks = keys) then modal_automaton s tag else s
             end)
      (modal_state page keys) events.
Proof.
  intros Hlen. unfold run_events.
  revert page. induction events as [|[tag ks] events IH]; intros page;
    [reflexivity|].
  cbn [foldl]. rewrite IH. by rewrite step_automaton.
Qed.

(** ** The accordion and the names it needs *)

Section AccordionGlobals.
Context `{Collaborators}.
Variables (self : ModelField) (item : Py).
Variables (aio_id form_id field parent : string) (field_info : Py).

Lemma load_global_bound (name : string) (extra : list string) (w : World) :
  existsb (String.eqb name) module_globals = true ->
  load_global name (extra ++ module_globals)%list w = (Ok tt, w).
Proof.
  intros Hbound. unfold load_global.
  by rewrite existsb_app, Hbound, orb_true_r.
Qed.

Lemma load_global_unbound (name : string) (extra : list string) (w : World) :
  existsb (String.eqb name) module_globals = false ->
  load_global name (extra ++ module_globals)%list w
  = if existsb (String.eqb name) extra then (Ok tt, w)
    else (Raise (NameError name), w).
Proof.
  intros Hunbound. unfold load_global.
  by rewrite existsb_app, Hunbound, orb_false_r.
Qed.

(** X11.  With further names bound beside the module's imports,
    [accordion_item] raises [NameError] on [fac] when [fac] is not among
    them, on [uuid] when [fac] is but [uuid] is not, and in both cases draws
    nothing; with both bound it returns a description, draws exactly one
    uuid, and descriptions built on different keys differ. *)
Theorem accordion_item_needs_fac_and_uuid :
  exists build : string -> Py,
    (forall k1 k2, build k1 = build k2 -> k1 = k2)
    /\ forall (extra : list string) (w : World),
         accordion_item self item aio_id form_id field parent field_info
           (extra ++ module_globals)%list w
         = if negb (existsb (String.eqb "fac") extra)
           then (Raise (NameError "fac"), w)
           else if negb (existsb (String.eqb "uuid") extra)
                then (Raise (NameError "uuid"), w)
                else (Ok (build (uuid_supply w (uuid_drawn w))),
                      mkWorld (uuid_supply w) (S (uuid_drawn w))).
Proof.
  eexists (fun key =>
             PComp "fac.AntdAccordion" []
               [("items",
                 PList
                   [dict_lit
                      [("title",
                        py_of_opt (get_title (inherited self) field_info field));
                       ("key", PStr key);
                       ("children",
                        accordion_panel self item aio_id form_id field parent
                          (get_title (inherited self) field_info field)
                          (get_description (inherited self) field_info)
                          (get_str_discriminator field_info))]]);
                ("style", accordion_style);
                ("className", PStr "pydantic-form-field")]).
  split.
  - intros k1 k2 Heq. unfold dict_lit in Heq. simpl in Heq. congruence.
  - intros extra w. unfold accordion_item, mbind, M_bind, uuid4_hex, mret, M_ret.
    rewrite load_global_bound by reflexivity. cbv beta iota.
    rewrite load_global_unbound by reflexivity.
    destruct (existsb (String.eqb "fac") extra); [|reflexivity]. cbv beta iota.
    rewrite load_global_unbound by reflexivity.
    destruct (existsb (String.eqb "uuid") extra); [|reflexivity]. cbv beta iota.
    rewrite load_global_bound by reflexivity. cbv beta iota.
    rewrite load_global_bound by reflexivity. reflexivity.
Qed.

End AccordionGlobals.

(** ** Examples of the further properties *)

Lemma model_post_init_layout_witness :
  exists self',
    @model_post_init Demo.collaborators
      (Demo.field "simple" (Demo.mkBase None None PNone)) = Ok self'
    /\ fields_repr self' = PDict [].
Proof.
  destruct (@model_post_init_layout Demo.collaborators
              (Demo.field "simple" (Demo.mkBase None None PNone)))
    as (self' & Hrun & _ & _ & Hkeep).
  exists self'. split; [exact Hrun|]. apply Hkeep. discriminate.
Defined.

Lemma model_post_init_idempotent_witness :
  exists twice,
    @model_post_init Demo.collaborators
      (Demo.field "simple" (Demo.mkBase None None PNone)) = Ok twice
    /\ form_layout twice = PNone
    /\ fields_repr twice = PDict [].
Proof.
  destruct (@model_post_init_idempotent Demo.collaborators
              (Demo.field "simple" (Demo.mkBase None None PNone))
              (Demo.field "simple" (Demo.mkBase None None PNone)))
    as (twice & Hrun & Hl & Hr & _).
  - vm_compute. reflexivity.
  - exists twice. split; [exact Hrun|]. split; [exact Hl | exact Hr].
Defined.

Lemma constructed_instance_dispatches_witness :
  exists s : Style,
    @_render Demo.collaborators (Demo.field "accordion" (Demo.mkBase None None PNone))
    = renderer s (Demo.field "accordion" (Demo.mkBase None None PNone)).
Proof.
  destruct (@constructed_instance_dispatches Demo.collaborators
              (Demo.args None ∅)
              (Demo.field "accordion" (Demo.mkBase None None PNone)))
    as (s & _ & Hdispatch & _).
  - vm_compute. reflexivity.
  - exists s. exact Hdispatch.
Defined.

Lemma constructed_instance_layout_witness :
  form_layout
    (@mkModelField Demo.collaborators (Demo.mkBase None None PNone)
       (Some {[ "sections" := dict_lit [("layout", PStr "grid")] ]})
       "accordion" (PDict []) (dict_lit [("layout", PStr "grid")]) 4 PNone PNone)
  = dict_get {[ "sections" := dict_lit [("layout", PStr "grid")] ]} "sections".
Proof.
  refine (proj2 (@constructed_instance_layout Demo.collaborators
                   (Demo.args None {[ "sections" := dict_lit [("layout", PStr "grid")] ]})
                   _ _) _).
  - vm_compute. reflexivity.
  - left. reflexivity.
Defined.

Lemma validate_form_layout_non_string_key_witness :
  exists msg,
    @validate_form_layout Demo.collaborators (PDict [(PInt 1, PStr "grid")])
    = Raise (TypeError msg).
Proof.
  destruct (@validate_form_layout_non_string_key Demo.collaborators
              [(PInt 1, PStr "grid")])
    as (msg & Hraise & _).
  - exists (PInt 1), (PStr "grid"). split; [constructor | discriminate].
  - exists msg. exact Hraise.
Defined.

Lemma simple_item_texts_witness :
  exists tree,
    (forall w,
       @simple_item Demo.collaborators
         (Demo.field "simple" (Demo.mkBase None (Some "details") PNone))
         Demo.nested "aio" "form" "address" "user" Demo.field_info module_globals w
       = (Ok tree, w))
    /\ filter (fun n => is_kind "dmc.Text" n = true) (nodes tree) = [].
Proof.
  destruct (@simple_item_texts Demo.collaborators
              (Demo.field "simple" (Demo.mkBase None (Some "details") PNone))
              Demo.nested "aio" "form" "address" "user" Demo.field_info)
    as (tree & Hrun & _ & Hnone).
  exists tree. split; [exact Hrun|]. apply Hnone. reflexivity.
Defined.

Lemma step_writes_only_own_modal_witness :
  modal_state (step fresh_page (Click edit_tag Demo.address))
    ["aio"; "form"; "billing"; "user"; EmptyString]
  = modal_state fresh_page ["aio"; "form"; "billing"; "user"; EmptyString].
Proof.
  apply (proj1 (proj2 (step_writes_only_own_modal fresh_page edit_tag Demo.address))).
  discriminate.
Defined.

Lemma run_events_automaton_witness :
  modal_state
    (run_events fresh_page
       [Click edit_tag Demo.address; Click modal_save_tag Demo.address;
        Click edit_tag Demo.address])
    Demo.address
  = Open.
Proof.
  rewrite (run_events_automaton Demo.address) by reflexivity.
  vm_compute. reflexivity.
Defined.
